(** * convert_to_html.py: a PDF-to-HTML conversion script

    The script opens a fixed PDF, hands the stream to pdfminer's
    [extract_text_to_fp] with an in-memory [StringIO] as sink, writes the
    sink's value to a fixed HTML path and prints a confirmation.

    The development has three layers:
    - [Py]: the part of the Python runtime the script touches (text and
      bytes, the UTF-8 codec, the text layer's newline translation, a file
      system with files, directories, permissions and a device that can be
      full, buffered file objects, [StringIO], [print], and exceptions), as
      a state-and-exception monad over a [world];
    - [Script]: the module body of [convert_to_html.py], statement by
      statement, over that runtime, with the extraction library as a
      parameter;
    - the properties of a run of the script as a process. *)

From Stdlib Require Import NArith ZArith.
From Stdlib.Strings Require Import Byte String Ascii.
From stdpp Require Import gmap list.

Local Open Scope N_scope.

(** A Python [str] is a sequence of code points; [bytes] is a sequence of
    bytes. *)
Abbreviation str := (list N).
Abbreviation bytes := (list byte).

(** A literal of the source, as a [str]. *)
Definition lit (s : string) : str :=
  List.map N_of_ascii (list_ascii_of_string s).

Fixpoint str_eqb (a b : str) : bool :=
  match a, b with
  | [], [] => true
  | x :: a', y :: b' => (x =? y) && str_eqb a' b'
  | _, _ => false
  end.

Module Py.

(** ** Platform *)

Inductive platform := Posix | Windows.

(** [os.linesep]. *)
Definition os_linesep (p : platform) : str :=
  match p with
  | Posix => [10]
  | Windows => [13; 10]
  end.

(** Path separators: [/] everywhere, and also [\] on Windows. *)
Definition is_sep (p : platform) (c : N) : bool :=
  match p with
  | Posix => c =? 47
  | Windows => (c =? 92) || (c =? 47)
  end.

(** The part of [s] before its last separator, if it has one. *)
Fixpoint before_last_sep (p : platform) (s : str) : option str :=
  match s with
  | [] => None
  | c :: r =>
      match before_last_sep p r with
      | Some d => Some (c :: d)
      | None => if is_sep p c then Some [] else None
      end
  end.

(** The directory an entry named [path] lives in; the empty path stands
    for the current directory. *)
Definition parent_dir (p : platform) (path : str) : str :=
  default [] (before_last_sep p path).

(** ** Text encoding *)

Definition byte_of_N (n : N) : byte :=
  default x00 (Byte.of_N (n mod 256)).

(** UTF-8, strict: surrogates (and values that are no code point) are
    refused. *)
Definition utf8_char (c : N) : option bytes :=
  if c <? 0x80 then Some [byte_of_N c]
  else if c <? 0x800 then
    Some [byte_of_N (N.lor 0xC0 (N.shiftr c 6));
          byte_of_N (N.lor 0x80 (N.land c 0x3F))]
  else if (0xD800 <=? c) && (c <=? 0xDFFF) then None
  else if c <? 0x10000 then
    Some [byte_of_N (N.lor 0xE0 (N.shiftr c 12));
          byte_of_N (N.lor 0x80 (N.land (N.shiftr c 6) 0x3F));
          byte_of_N (N.lor 0x80 (N.land c 0x3F))]
  else if c <? 0x110000 then
    Some [byte_of_N (N.lor 0xF0 (N.shiftr c 18));
          byte_of_N (N.lor 0x80 (N.land (N.shiftr c 12) 0x3F));
          byte_of_N (N.lor 0x80 (N.land (N.shiftr c 6) 0x3F));
          byte_of_N (N.lor 0x80 (N.land c 0x3F))]
  else None.

Fixpoint utf8_encode (s : str) : option bytes :=
  match s with
  | [] => Some []
  | c :: r =>
      match utf8_char c, utf8_encode r with
      | Some b, Some bs => Some (b ++ bs)
      | _, _ => None
      end
  end.

(** The codecs known by name. Only the one the script asks for is
    modelled. *)
Definition codec_lookup (name : str) : option (str -> option bytes) :=
  if str_eqb name (lit "utf-8") then Some utf8_encode else None.

(** What a text file opened with [newline=None] does to written text:
    every ["\n"] becomes the line separator of the platform. *)
Definition translate_newlines (sep : str) (s : str) : str :=
  flat_map (fun c => if c =? 10 then sep else [c]) s.

(** ** Exceptions *)

Inductive exn :=
| FileNotFoundError (path : str)
| PermissionError (path : str)
| IsADirectoryError (path : str)
| OSError (errno : N)
| UnicodeEncodeError
| ValueError
| LibraryError (name : str)
| Unsupported.

(** [OSError] (alias [IOError]) and its subclasses. *)
Definition is_OSError (e : exn) : bool :=
  match e with
  | FileNotFoundError _ | PermissionError _ | IsADirectoryError _
  | OSError _ => true
  | _ => false
  end.

(** No space left on device. *)
Definition ENOSPC : N := 28.

(** What opening a directory as a file raises. *)
Definition is_a_directory (p : platform) (path : str) : exn :=
  match p with
  | Posix => IsADirectoryError path
  | Windows => PermissionError path
  end.

(** ** File system *)

Record file := File {
  f_data : bytes;
  f_readable : bool;
  f_writable : bool
}.

(** Files by path, directories by path, each directory with whether
    entries may be created in it, and the number of bytes the device can
    still take. *)
Record filesystem := FS {
  fs_files : gmap (list N) file;
  fs_dirs : gmap (list N) bool;
  fs_free : nat
}.

(** Opening for reading: the name must be that of a file, not of a
    directory, and the file readable. *)
Definition fs_open_read (p : platform) (fs : filesystem) (path : str)
  : exn + filesystem :=
  match fs_files fs !! path with
  | Some f => if f_readable f then inr fs else inl (PermissionError path)
  | None =>
      match (fs_dirs fs !! path : option bool) with
      | Some _ => inl (is_a_directory p path)
      | None => inl (FileNotFoundError path)
      end
  end.

(** Opening for writing: the directory of the name must exist and the name
    must not be that of a directory; the file is created if absent and
    emptied if present, which gives its bytes back to the device. *)
Definition fs_open_trunc (p : platform) (fs : filesystem) (path : str)
  : exn + filesystem :=
  match (fs_dirs fs !! parent_dir p path : option bool) with
  | None => inl (FileNotFoundError path)
  | Some may_create =>
      match (fs_dirs fs !! path : option bool) with
      | Some _ => inl (is_a_directory p path)
      | None =>
          match fs_files fs !! path with
          | Some f =>
              if f_writable f
              then inr (FS (<[path := File [] (f_readable f) (f_writable f)]>
                              (fs_files fs))
                           (fs_dirs fs)
                           (fs_free fs + length (f_data f)))
              else inl (PermissionError path)
          | None =>
              if may_create
              then inr (FS (<[path := File [] true true]> (fs_files fs))
                           (fs_dirs fs) (fs_free fs))
              else inl (PermissionError path)
          end
      end
  end.

Definition fs_append (fs : filesystem) (path : str) (bs : bytes) : filesystem :=
  match fs_files fs !! path with
  | Some f =>
      FS (<[path := File (f_data f ++ bs) (f_readable f) (f_writable f)]>
            (fs_files fs))
         (fs_dirs fs)
         (fs_free fs - length bs)
  | None => fs
  end.

(** Sending bytes to the device: all of them if there is room; otherwise
    what fits, and the error of a full device. *)
Definition fs_push (fs : filesystem) (path : str) (bs : bytes)
  : option exn * filesystem :=
  if Nat.leb (length bs) (fs_free fs)
  then (None, fs_append fs path bs)
  else (Some (OSError ENOSPC), fs_append fs path (take (fs_free fs) bs)).

(** ** The extraction library, seen from the caller

    [pdfminer.layout.LAParams] is built from keyword arguments, each with a
    default; [LAParams []] is the object built by the call [LAParams()]. *)

Inductive pyval :=
| PyNone
| PyBool (b : bool)
| PyFloat (mantissa exponent : Z).

Inductive laparams := LAParams (kwargs : list (list N * pyval)).

(** [pdfminer.high_level.extract_text_to_fp], as a function of what it
    reads and of its arguments: the text it emits into the sink, and the
    exception it ends with, if any. *)
Definition extractor : Type :=
  bytes -> laparams -> str -> option str -> str * option exn.

(** ** The world of a process *)

Inductive open_mode :=
| ReadBinary
| WriteText (encoding : str).

(** A file object: its path, its mode and the bytes written to it that
    are still in its buffer. *)
Record handle := Handle {
  h_path : str;
  h_mode : open_mode;
  h_pending : bytes
}.

(** [io.DEFAULT_BUFFER_SIZE]. *)
Definition DEFAULT_BUFFER_SIZE : N := 8192.

Definition fits_buffer (bs : bytes) : bool :=
  N.of_nat (length bs) <=? DEFAULT_BUFFER_SIZE.

Inductive event :=
| EvOpen (path mode : str) (encoding : option str) (fd : option nat)
| EvExtract (inf outfp : nat) (la : laparams) (output_type : str)
            (codec : option str)
| EvWrite (fd : nat) (s : str)
| EvClose (fd : nat)
| EvPrint (s : str).

Record world := World {
  w_fs : filesystem;
  w_handles : gmap nat handle;   (* open file objects *)
  w_buffers : gmap nat (list N); (* StringIO objects *)
  w_next : nat;                  (* next object identity *)
  w_stdout : str;
  w_trace : list event
}.

Definition log (ev : event) (w : world) : world :=
  World (w_fs w) (w_handles w) (w_buffers w) (w_next w) (w_stdout w)
        (w_trace w ++ [ev]).

Definition set_fs (fs : filesystem) (w : world) : world :=
  World fs (w_handles w) (w_buffers w) (w_next w) (w_stdout w) (w_trace w).

Definition set_handles (h : gmap nat handle) (w : world) : world :=
  World (w_fs w) h (w_buffers w) (w_next w) (w_stdout w) (w_trace w).

Definition set_buffers (b : gmap nat (list N)) (w : world) : world :=
  World (w_fs w) (w_handles w) b (w_next w) (w_stdout w) (w_trace w).

Definition set_stdout (o : str) (w : world) : world :=
  World (w_fs w) (w_handles w) (w_buffers w) (w_next w) o (w_trace w).

Definition fresh (w : world) : nat * world :=
  (w_next w,
   World (w_fs w) (w_handles w) (w_buffers w) (S (w_next w)) (w_stdout w)
         (w_trace w)).

(** ** Computations: state and exceptions *)

Inductive result (A : Type) :=
| Ok (a : A)
| Raise (e : exn).
Arguments Ok {A} a.
Arguments Raise {A} e.

Definition M (A : Type) : Type := world -> result A * world.

Definition ret {A} (a : A) : M A := fun w => (Ok a, w).

Definition raise {A} (e : exn) : M A := fun w => (Raise e, w).

Definition bind {A B} (m : M A) (k : A -> M B) : M B :=
  fun w =>
    match m w with
    | (Ok a, w') => k a w'
    | (Raise e, w') => (Raise e, w')
    end.

Declare Scope py_scope.
Delimit Scope py_scope with py.
Notation "x <- m ;; k" := (bind m (fun x => k))
  (at level 100, m at next level, right associativity) : py_scope.
Notation "m ;;; k" := (bind m (fun _ => k))
  (at level 100, right associativity) : py_scope.

(** [try: body finally: cleanup]. The cleanup runs on both exits; the
    exception of the body, if any, goes on after it. *)
Definition finally {A} (body : M A) (cleanup : M unit) : M A :=
  fun w =>
    match body w with
    | (r, w1) =>
        match cleanup w1 with
        | (Ok _, w2) => (r, w2)
        | (Raise e, w2) => (Raise e, w2)
        end
    end.

(** ** Built-ins and library calls *)

Section Runtime.

Variable plat : platform.
Variable pdfminer : extractor.

(** The [mode] and [encoding] arguments of [open], for the two ways the
    script opens a file. *)
Definition parse_mode (mode : str) (encoding : option str) : option open_mode :=
  if str_eqb mode (lit "rb") then
    match encoding with
    | None => Some ReadBinary
    | Some _ => None
    end
  else if str_eqb mode (lit "w") then
    match encoding with
    | Some enc =>
        match codec_lookup enc with
        | Some _ => Some (WriteText enc)
        | None => None
        end
    | None => None
    end
  else None.

(** [open(path, mode, encoding=...)]. *)
Definition py_open (path mode : str) (encoding : option str) : M nat :=
  fun w =>
    match parse_mode mode encoding with
    | None => (Raise Unsupported, w)
    | Some m =>
        match match m with
              | ReadBinary => fs_open_read plat (w_fs w) path
              | WriteText _ => fs_open_trunc plat (w_fs w) path
              end with
        | inl e => (Raise e, log (EvOpen path mode encoding None) w)
        | inr fs' =>
            let '(fd, w1) := fresh w in
            (Ok fd,
             log (EvOpen path mode encoding (Some fd))
                 (set_handles (<[fd := Handle path m []]> (w_handles w1))
                              (set_fs fs' w1)))
        end
    end.

(** [f.close()]: what is still in the buffer goes to the device, which
    may refuse it; the object is closed either way. *)
Definition file_close (fd : nat) : M unit :=
  fun w =>
    let w0 := log (EvClose fd) (set_handles (delete fd (w_handles w)) w) in
    match w_handles w !! fd with
    | Some (Handle path (WriteText _) (b :: pending)) =>
        match fs_push (w_fs w) path (b :: pending) with
        | (None, fs') => (Ok tt, set_fs fs' w0)
        | (Some e, fs') => (Raise e, set_fs fs' w0)
        end
    | _ => (Ok tt, w0)
    end.

(** [with cm as f: body], for a file object: the object is its own context
    manager, and leaving the block closes it and lets an exception pass. *)
Definition with_ {A} (cm : M nat) (body : nat -> M A) : M A :=
  (f <- cm ;; finally (body f) (file_close f))%py.

(** [StringIO()]. *)
Definition StringIO : M nat :=
  fun w =>
    let '(id, w1) := fresh w in
    (Ok id, set_buffers (<[id := []]> (w_buffers w1)) w1).

(** [buf.getvalue()]. *)
Definition getvalue (id : nat) : M str :=
  fun w =>
    match w_buffers w !! id with
    | Some v => (Ok v, w)
    | None => (Raise Unsupported, w)
    end.

(** [extract_text_to_fp(inf, outfp, laparams=, output_type=, codec=)]: the
    library reads the stream [inf] and writes text into the sink [outfp]. *)
Definition extract_text_to_fp (inf outfp : nat) (la : laparams)
    (output_type : str) (codec : option str) : M unit :=
  fun w =>
    let w0 := log (EvExtract inf outfp la output_type codec) w in
    match w_handles w !! inf with
    | Some (Handle path ReadBinary _) =>
        match fs_files (w_fs w) !! path, w_buffers w !! outfp with
        | Some f, Some old =>
            let '(emitted, err) := pdfminer (f_data f) la output_type codec in
            let w1 := set_buffers (<[outfp := old ++ emitted]> (w_buffers w0)) w0 in
            match err with
            | None => (Ok tt, w1)
            | Some e => (Raise e, w1)
            end
        | _, _ => (Raise Unsupported, w0)
        end
    | Some (Handle _ (WriteText _) _) => (Raise Unsupported, w0)
    | None => (Raise ValueError, w0)
    end.

(** [f.write(s)] on a text file: newline translation, then the codec; the
    bytes stay in the buffer of the object while they fit there, and go to
    the device at once, with what was waiting, when they do not. The result
    is the number of characters of [s]. *)
Definition file_write (fd : nat) (s : str) : M nat :=
  fun w =>
    let w0 := log (EvWrite fd s) w in
    match w_handles w !! fd with
    | Some (Handle path (WriteText enc) pending) =>
        match codec_lookup enc with
        | Some encode =>
            match encode (translate_newlines (os_linesep plat) s) with
            | Some bs =>
                if fits_buffer (pending ++ bs) then
                  (Ok (length s),
                   set_handles
                     (<[fd := Handle path (WriteText enc) (pending ++ bs)]>
                        (w_handles w0)) w0)
                else
                  let w1 :=
                    set_handles
                      (<[fd := Handle path (WriteText enc) []]> (w_handles w0))
                      w0 in
                  match fs_push (w_fs w0) path (pending ++ bs) with
                  | (None, fs') => (Ok (length s), set_fs fs' w1)
                  | (Some e, fs') => (Raise e, set_fs fs' w1)
                  end
            | None => (Raise UnicodeEncodeError, w0)
            end
        | None => (Raise Unsupported, w0)
        end
    | Some (Handle _ ReadBinary _) => (Raise Unsupported, w0)
    | None => (Raise ValueError, w0)
    end.

(** [print(s)]. *)
Definition print (s : str) : M unit :=
  fun w => (Ok tt, log (EvPrint s) (set_stdout (w_stdout w ++ s ++ [10]) w)).

End Runtime.

End Py.

Import Py.

(** * The script *)

Section Script.

Variable plat : platform.
Variable pdfminer : extractor.

Definition pdf_path : str :=
  lit "C:\Users\renzy\Downloads\CODE\New folder\smdi-test1\user-workspace\Electrical_Inspection_Checklists.pdf".

Definition html_path : str :=
  lit "C:\Users\renzy\Downloads\Electrical_Inspection_Checklists.html".

(** The module body, statement by statement. *)
Definition main : M unit :=
  (output_string <- StringIO ;;
   (with_ (py_open plat pdf_path (lit "rb") None) (fun in_file =>
      extract_text_to_fp pdfminer in_file output_string
        (LAParams []) (lit "html") None)) ;;;
   (with_ (py_open plat html_path (lit "w") (Some (lit "utf-8")))
      (fun out_file =>
         v <- getvalue output_string ;;
         file_write plat out_file v)) ;;;
   print (lit "HTML saved to " ++ html_path))%py.

(** A process starts with the standard streams as objects 0 to 2, nothing
    else open and nothing printed. *)
Definition boot (fs : filesystem) : world :=
  World fs ∅ ∅ 3 [] [].

Definition run (fs : filesystem) : result unit * world :=
  main (boot fs).

(** The exit status of the interpreter: 1 after an exception nobody
    caught. *)
Definition exit_status (r : result unit) : Z :=
  match r with
  | Ok _ => 0%Z
  | Raise _ => 1%Z
  end.

(** What the interpreter itself reports on standard error. *)
Definition traceback (r : result unit) : option exn :=
  match r with
  | Ok _ => None
  | Raise e => Some e
  end.

End Script.

(** * Observations on a run *)

(** The value of the buffer the script extracts into: [output_string] is
    the first object the process creates. *)
Definition buffer_value (w : world) : option str :=
  w_buffers w !! 3%nat.

(** The content of a file, by path. *)
Definition content (fs : filesystem) (path : str) : option bytes :=
  f_data <$> fs_files fs !! path.

(** How a run ends, and the world it leaves. *)
Definition outcome (plat : platform) (pdfminer : extractor) (fs : filesystem)
  : result unit :=
  fst (run plat pdfminer fs).

Definition final (plat : platform) (pdfminer : extractor) (fs : filesystem)
  : world :=
  snd (run plat pdfminer fs).

(** The source can be opened: it exists and may be read. *)
Definition source_ok (fs : filesystem) (f : file) : Prop :=
  fs_files fs !! pdf_path = Some f /\ f_readable f = true.

(** What the library does with the source and the script's arguments. *)
Definition extraction (pdfminer : extractor) (f : file) : str * option exn :=
  pdfminer (f_data f) (LAParams []) (lit "html") None.

(** The one line the script prints. *)
Definition confirmation : str :=
  lit "HTML saved to " ++ html_path.

Definition count_lines (s : str) : nat :=
  count_occ N.eq_dec s 10.

(** How often [open] was called on [path]. *)
Fixpoint opens_of (path : str) (tr : list event) : nat :=
  match tr with
  | [] => 0
  | EvOpen p _ _ _ :: r =>
      if str_eqb p path then S (opens_of path r) else opens_of path r
  | _ :: r => opens_of path r
  end.

(** The worlds a run can end in, by the step it ends at. *)
Definition opened_source : list event :=
  [EvOpen pdf_path (lit "rb") None (Some 4%nat);
   EvExtract 4 3 (LAParams []) (lit "html") None;
   EvClose 4].

Definition after_source_failure (fs : filesystem) : world :=
  World fs ∅ {[3%nat := []]} 4 [] [EvOpen pdf_path (lit "rb") None None].

Definition after_extraction_failure (fs : filesystem) (t : str) : world :=
  World fs ∅ {[3%nat := t]} 5 [] opened_source.

Definition after_destination_failure (fs : filesystem) (t : str) : world :=
  World fs ∅ {[3%nat := t]} 5 []
    (opened_source ++ [EvOpen html_path (lit "w") (Some (lit "utf-8")) None]).

Definition after_write_failure (fs1 : filesystem) (t : str) : world :=
  World fs1 ∅ {[3%nat := t]} 6 []
    (opened_source ++
     [EvOpen html_path (lit "w") (Some (lit "utf-8")) (Some 5%nat);
      EvWrite 5 t;
      EvClose 5]).

Definition after_device_failure (fs1 : filesystem) (t : str) (bs : bytes)
  : world :=
  World (fs_append fs1 html_path (take (fs_free fs1) bs)) ∅ {[3%nat := t]} 6 []
    (opened_source ++
     [EvOpen html_path (lit "w") (Some (lit "utf-8")) (Some 5%nat);
      EvWrite 5 t;
      EvClose 5]).

Definition after_success (fs1 : filesystem) (t : str) (bs : bytes) : world :=
  World (fs_append fs1 html_path bs) ∅ {[3%nat := t]} 6
    (confirmation ++ [10])
    (opened_source ++
     [EvOpen html_path (lit "w") (Some (lit "utf-8")) (Some 5%nat);
      EvWrite 5 t;
      EvClose 5;
      EvPrint confirmation]).

(** ** The discipline of file objects, as an automaton over the trace

    A file object is opened, used by exactly one call (the extraction for
    one opened for binary reading, the write for one opened for text
    writing) and closed by the very next event; nothing else happens while
    one is open, and none is open at the end. *)
Inductive scope_state :=
| Idle
| Opened (fd : nat) (m : open_mode)
| Used (fd : nat).

Definition scope_step (s : scope_state) (ev : event) : option scope_state :=
  match s, ev with
  | Idle, EvOpen _ mode enc (Some fd) => Opened fd <$> parse_mode mode enc
  | Idle, EvOpen _ _ _ None => Some Idle
  | Idle, EvPrint _ => Some Idle
  | Opened fd ReadBinary, EvExtract inf _ _ _ _ =>
      if Nat.eqb inf fd then Some (Used fd) else None
  | Opened fd (WriteText _), EvWrite fd' _ =>
      if Nat.eqb fd' fd then Some (Used fd) else None
  | Used fd, EvClose fd' =>
      if Nat.eqb fd' fd then Some Idle else None
  | _, _ => None
  end.

Fixpoint scope_run (s : scope_state) (tr : list event) : option scope_state :=
  match tr with
  | [] => Some s
  | ev :: r =>
      match scope_step s ev with
      | Some s' => scope_run s' r
      | None => None
      end
  end.

Definition handles_scoped (tr : list event) : bool :=
  match scope_run Idle tr with
  | Some Idle => true
  | _ => false
  end.

(** Which paths are opened, and how. *)
Definition opens_as_scripted (ev : event) : Prop :=
  match ev with
  | EvOpen p m enc _ =>
      (p = pdf_path /\ m = lit "rb" /\ enc = None) \/
      (p = html_path /\ m = lit "w" /\ enc = Some (lit "utf-8"))
  | _ => True
  end.

(** A step of the run fails with [e]: opening the source, the extraction,
    or opening the destination (of which a missing parent directory is one
    case), the steps before it having gone well. *)
Definition fatal_step (plat : platform) (pdfminer : extractor)
    (fs : filesystem) (e : exn) : Prop :=
  fs_open_read plat fs pdf_path = inl e \/
  (exists f t, source_ok fs f /\ extraction pdfminer f = (t, Some e)) \/
  (exists f t, source_ok fs f /\ extraction pdfminer f = (t, None) /\
               fs_open_trunc plat fs html_path = inl e) \/
  (exists f t, source_ok fs f /\ extraction pdfminer f = (t, None) /\
               fs_dirs fs !! parent_dir plat html_path = None /\
               e = FileNotFoundError html_path).

Definition is_extract (ev : event) : bool :=
  match ev with
  | EvExtract _ _ _ _ _ => true
  | _ => false
  end.

Definition is_print (ev : event) : bool :=
  match ev with
  | EvPrint _ => true
  | _ => false
  end.

Definition count_extractions (tr : list event) : nat :=
  length (List.filter is_extract tr).

(** The destination can be opened for writing: its directory exists, no
    directory has its name, and the file is there and writable, or is not
    there and may be created. *)
Definition destination_ok (plat : platform) (fs : filesystem) : Prop :=
  exists c, fs_dirs fs !! parent_dir plat html_path = Some c /\
    fs_dirs fs !! html_path = None /\
    match fs_files fs !! html_path with
    | Some g => f_writable g = true
    | None => c = true
    end.

(** It cannot: the directory is missing, or the name is that of a
    directory, or the file is there and not writable, or is not there and
    may not be created. *)
Definition destination_refused (plat : platform) (fs : filesystem) : Prop :=
  fs_dirs fs !! parent_dir plat html_path = None \/
  is_Some (fs_dirs fs !! html_path) \/
  (exists g, fs_files fs !! html_path = Some g /\ f_writable g = false) \/
  (fs_files fs !! html_path = None /\
   fs_dirs fs !! parent_dir plat html_path = Some false).

(** The bytes the device can take for the destination once it is emptied:
    what is free, and what the destination holds now. *)
Definition destination_room (fs : filesystem) : nat :=
  fs_free fs +
  match fs_files fs !! html_path with
  | Some g => length (f_data g)
  | None => 0
  end.

(** ** Sample inputs *)

(** A library that emits two lines, whatever it reads. *)
Definition two_lines : extractor :=
  fun _ _ _ _ => ([97; 10; 98], None).

(** A library that emits nothing. *)
Definition no_output : extractor :=
  fun _ _ _ _ => ([], None).

(** A library that rejects what it reads. *)
Definition rejecting : extractor :=
  fun _ _ _ _ => (lit "<html>", Some (LibraryError (lit "PDFSyntaxError"))).

(** The source is there, the destination directory too, and the
    destination holds something else. *)
Definition sample_fs : filesystem :=
  FS {[ pdf_path := File [x25; x50; x44; x46] true true;
        html_path := File [x6f; x6c; x64] true true ]}
     {[ parent_dir Windows html_path := true ]} 1000.

(** The same without a destination file. *)
Definition fresh_fs : filesystem :=
  FS {[ pdf_path := File [x25; x50; x44; x46] true true ]}
     {[ parent_dir Windows html_path := true ]} 1000.

(** No source. *)
Definition no_source_fs : filesystem :=
  FS {[ html_path := File [x6f; x6c; x64] true true ]}
     {[ parent_dir Windows html_path := true ]} 1000.

(** A source, but no directory for the destination. *)
Definition no_dir_fs : filesystem :=
  FS {[ pdf_path := File [x25; x50; x44; x46] true true ]} ∅ 1000.

(** ** What the codec accepts, and what is written *)

(** The code points the strict UTF-8 codec accepts: the Unicode scalar
    values, that is everything up to [0x10FFFF] but the surrogates. *)
Definition is_scalar (c : N) : bool :=
  (c <? 0xD800) || ((0xDFFF <? c) && (c <? 0x110000)).

Definition is_write (ev : event) : bool :=
  match ev with
  | EvWrite _ _ => true
  | _ => false
  end.

(** A library whose output holds a lone surrogate. *)
Definition lone_surrogate : extractor :=
  fun _ _ _ _ => ([60; 0xD800; 62], None).

(** A library whose output is plain ASCII on one line. *)
Definition one_line : extractor :=
  fun _ _ _ _ => (lit "<html></html>", None).

(** * Evaluating a run *)

Lemma str_eqb_eq (a b : str) : str_eqb a b = true <-> a = b.
Proof.
  revert b; induction a as [|x a IH]; intros [|y b]; simpl; try easy.
  rewrite andb_true_iff, N.eqb_eq, IH. split.
  - intros [-> ->]; reflexivity.
  - intros [= -> ->]; auto.
Qed.

Lemma str_eqb_refl (a : str) : str_eqb a a = true.
Proof. now apply str_eqb_eq. Qed.

Lemma paths_distinct : pdf_path ≠ html_path.
Proof.
  intros H. apply (f_equal (@length N)) in H. vm_compute in H. discriminate H.
Qed.

Lemma str_eqb_paths : str_eqb pdf_path html_path = false.
Proof. vm_compute. reflexivity. Qed.

Lemma str_eqb_paths' : str_eqb html_path pdf_path = false.
Proof. vm_compute. reflexivity. Qed.

Lemma confirmation_one_line : count_lines (confirmation ++ [10]) = 1%nat.
Proof. vm_compute. reflexivity. Qed.

Lemma parse_mode_rb : parse_mode (lit "rb") None = Some ReadBinary.
Proof. reflexivity. Qed.

Lemma parse_mode_w :
  parse_mode (lit "w") (Some (lit "utf-8")) = Some (WriteText (lit "utf-8")).
Proof. reflexivity. Qed.

Lemma codec_utf8 : codec_lookup (lit "utf-8") = Some utf8_encode.
Proof. reflexivity. Qed.

Opaque pdf_path html_path.
Arguments lit : simpl never.
Arguments parse_mode : simpl never.
Arguments codec_lookup : simpl never.
Arguments translate_newlines : simpl never.
Arguments utf8_encode : simpl never.
Arguments fits_buffer : simpl never.
Arguments fs_push : simpl never.

Ltac unfold_script :=
  unfold run, main, boot, with_, bind, finally, StringIO, py_open,
    extract_text_to_fp, getvalue, file_write, file_close, print.

Ltac py_simpl :=
  repeat (cbn;
          first [ rewrite parse_mode_rb | rewrite parse_mode_w
                | rewrite codec_utf8 | rewrite lookup_insert_eq
                | rewrite insert_insert_eq | rewrite delete_insert_eq
                | rewrite delete_empty ]);
  cbn.

(** ** The file system operations *)

Lemma is_a_directory_error plat p : is_OSError (is_a_directory plat p) = true.
Proof. now destruct plat. Qed.

Lemma open_read_error plat fs p e :
  fs_open_read plat fs p = inl e -> is_OSError e = true.
Proof.
  unfold fs_open_read. destruct (fs_files fs !! p) as [f|].
  - destruct (f_readable f); [discriminate|]. now intros [= <-].
  - destruct (fs_dirs fs !! p); intros [= <-];
      [apply is_a_directory_error|reflexivity].
Qed.

Lemma open_trunc_error plat fs p e :
  fs_open_trunc plat fs p = inl e -> is_OSError e = true.
Proof.
  unfold fs_open_trunc.
  destruct (fs_dirs fs !! parent_dir plat p) as [c|]; [|now intros [= <-]].
  destruct (fs_dirs fs !! p); [intros [= <-]; apply is_a_directory_error|].
  destruct (fs_files fs !! p) as [f|].
  - destruct (f_writable f); [discriminate|]. now intros [= <-].
  - destruct c; [discriminate|]. now intros [= <-].
Qed.

Lemma source_ok_open plat fs f :
  source_ok fs f -> fs_open_read plat fs pdf_path = inr fs.
Proof. intros [H1 H2]. unfold fs_open_read. now rewrite H1, H2. Qed.

Lemma open_read_inv plat fs fs' :
  fs_open_read plat fs pdf_path = inr fs' -> exists f, source_ok fs f.
Proof.
  unfold fs_open_read, source_ok.
  destruct (fs_files fs !! pdf_path) as [f|] eqn:E.
  - destruct (f_readable f) eqn:R; [|discriminate]. eauto.
  - destruct (fs_dirs fs !! pdf_path); discriminate.
Qed.

(** What a successful opening for writing leaves: the same file system
    with an empty, writable file at the path, whose former bytes, if any,
    are free again. *)
Lemma open_trunc_inv plat fs p fs1 :
  fs_open_trunc plat fs p = inr fs1 ->
  exists r c,
    fs_dirs fs !! parent_dir plat p = Some c /\
    fs_dirs fs !! p = None /\
    fs1 = FS (<[p := File [] r true]> (fs_files fs)) (fs_dirs fs)
             (fs_free fs + match fs_files fs !! p with
                           | Some g => length (f_data g)
                           | None => 0
                           end) /\
    match fs_files fs !! p with
    | Some g => f_readable g = r /\ f_writable g = true
    | None => r = true /\ c = true
    end.
Proof.
  unfold fs_open_trunc.
  destruct (fs_dirs fs !! parent_dir plat p) as [c|]; [|discriminate].
  destruct (fs_dirs fs !! p) eqn:D; [discriminate|].
  destruct (fs_files fs !! p) as [g|].
  - destruct (f_writable g) eqn:W; [|discriminate]. intros [= <-].
    exists (f_readable g), c. auto.
  - destruct c; [|discriminate]. intros [= <-]. exists true, true.
    rewrite Nat.add_0_r. auto.
Qed.

Lemma append_after_trunc m d k p r bs :
  fs_append (FS (<[p := File [] r true]> m) d k) p bs =
  FS (<[p := File bs r true]> m) d (k - length bs).
Proof.
  unfold fs_append. cbn. rewrite lookup_insert_eq. cbn.
  now rewrite insert_insert_eq.
Qed.

Lemma open_trunc_again plat m d k p r c bs :
  d !! parent_dir plat p = Some c ->
  d !! p = None ->
  fs_open_trunc plat (FS (<[p := File bs r true]> m) d k) p =
  inr (FS (<[p := File [] r true]> m) d (k + length bs)).
Proof.
  intros Hd Hn. unfold fs_open_trunc. cbn. rewrite Hd, Hn, lookup_insert_eq. cbn.
  now rewrite insert_insert_eq.
Qed.

Lemma push_fits fs p bs :
  (length bs <= fs_free fs)%nat -> fs_push fs p bs = (None, fs_append fs p bs).
Proof.
  intros H. unfold fs_push. now destruct (Nat.leb_spec (length bs) (fs_free fs)); [|lia].
Qed.

Lemma push_full fs p bs :
  (fs_free fs < length bs)%nat ->
  fs_push fs p bs =
  (Some (OSError ENOSPC), fs_append fs p (take (fs_free fs) bs)).
Proof.
  intros H. unfold fs_push. now destruct (Nat.leb_spec (length bs) (fs_free fs)); [lia|].
Qed.

(** ** The six ways a run can go *)

Section Cases.

Variable plat : platform.
Variable pdfminer : extractor.

Lemma run_source_fails fs e :
  fs_open_read plat fs pdf_path = inl e ->
  run plat pdfminer fs = (Raise e, after_source_failure fs).
Proof.
  intros H. unfold_script. py_simpl. rewrite H. reflexivity.
Qed.

Lemma run_extract_fails fs f t e :
  source_ok fs f ->
  extraction pdfminer f = (t, Some e) ->
  run plat pdfminer fs = (Raise e, after_extraction_failure fs t).
Proof.
  intros Hs Hx. pose proof (source_ok_open plat _ _ Hs) as Ho.
  destruct Hs as [H1 H2]. unfold extraction in Hx.
  unfold_script. py_simpl. rewrite Ho. py_simpl. rewrite H1, Hx. py_simpl.
  reflexivity.
Qed.

Lemma run_dest_fails fs f t e :
  source_ok fs f ->
  extraction pdfminer f = (t, None) ->
  fs_open_trunc plat fs html_path = inl e ->
  run plat pdfminer fs = (Raise e, after_destination_failure fs t).
Proof.
  intros Hs Hx Hd. pose proof (source_ok_open plat _ _ Hs) as Ho.
  destruct Hs as [H1 H2]. unfold extraction in Hx.
  unfold_script. py_simpl. rewrite Ho. py_simpl. rewrite H1, Hx. py_simpl.
  rewrite Hd. reflexivity.
Qed.

Lemma run_write_fails fs f t fs1 :
  source_ok fs f ->
  extraction pdfminer f = (t, None) ->
  fs_open_trunc plat fs html_path = inr fs1 ->
  utf8_encode (translate_newlines (os_linesep plat) t) = None ->
  run plat pdfminer fs = (Raise UnicodeEncodeError, after_write_failure fs1 t).
Proof.
  intros Hs Hx Hd He. pose proof (source_ok_open plat _ _ Hs) as Ho.
  destruct Hs as [H1 H2]. unfold extraction in Hx.
  unfold_script. py_simpl. rewrite Ho. py_simpl. rewrite H1, Hx. py_simpl.
  rewrite Hd. py_simpl. rewrite He. py_simpl. reflexivity.
Qed.

(** The device is full before the text is out: whether the bytes leave at
    the write, being more than the buffer takes, or at the close, the run
    ends with the error of the device and the destination holds what
    fitted. *)
Lemma run_device_fails fs f t fs1 bs :
  source_ok fs f ->
  extraction pdfminer f = (t, None) ->
  fs_open_trunc plat fs html_path = inr fs1 ->
  utf8_encode (translate_newlines (os_linesep plat) t) = Some bs ->
  (fs_free fs1 < length bs)%nat ->
  run plat pdfminer fs = (Raise (OSError ENOSPC), after_device_failure fs1 t bs).
Proof.
  intros Hs Hx Hd He Hfull. pose proof (source_ok_open plat _ _ Hs) as Ho.
  destruct Hs as [H1 H2]. unfold extraction in Hx.
  unfold_script. py_simpl. rewrite Ho. py_simpl. rewrite H1, Hx. py_simpl.
  rewrite Hd. py_simpl. rewrite He. py_simpl.
  destruct (fits_buffer bs) eqn:Hbuf; py_simpl.
  - destruct bs as [|b bs]; [cbn in Hfull; lia|].
    rewrite (push_full _ _ _ Hfull). py_simpl. reflexivity.
  - rewrite (push_full _ _ _ Hfull). py_simpl. reflexivity.
Qed.

Lemma run_ok fs f t fs1 bs :
  source_ok fs f ->
  extraction pdfminer f = (t, None) ->
  fs_open_trunc plat fs html_path = inr fs1 ->
  utf8_encode (translate_newlines (os_linesep plat) t) = Some bs ->
  (length bs <= fs_free fs1)%nat ->
  run plat pdfminer fs = (Ok tt, after_success fs1 t bs).
Proof.
  intros Hs Hx Hd He Hfits. pose proof (source_ok_open plat _ _ Hs) as Ho.
  destruct Hs as [H1 H2]. unfold extraction in Hx.
  unfold_script. py_simpl. rewrite Ho. py_simpl. rewrite H1, Hx. py_simpl.
  rewrite Hd. py_simpl. rewrite He. py_simpl.
  unfold after_success, confirmation.
  destruct (fits_buffer bs) eqn:Hbuf; py_simpl.
  - destruct bs as [|b bs].
    + apply open_trunc_inv in Hd as (r & c & _ & _ & -> & _).
      rewrite append_after_trunc. cbn [length]. rewrite Nat.sub_0_r.
      py_simpl. rewrite <- app_assoc. reflexivity.
    + rewrite (push_fits _ _ _ Hfits). py_simpl.
      rewrite <- app_assoc. reflexivity.
  - rewrite (push_fits _ _ _ Hfits). py_simpl.
    rewrite <- app_assoc. reflexivity.
Qed.

(** Every run is one of the six. *)
Lemma run_cases fs :
  (exists e,
      fs_open_read plat fs pdf_path = inl e /\
      run plat pdfminer fs = (Raise e, after_source_failure fs)) \/
  (exists f t e,
      source_ok fs f /\ extraction pdfminer f = (t, Some e) /\
      run plat pdfminer fs = (Raise e, after_extraction_failure fs t)) \/
  (exists f t e,
      source_ok fs f /\ extraction pdfminer f = (t, None) /\
      fs_open_trunc plat fs html_path = inl e /\
      run plat pdfminer fs = (Raise e, after_destination_failure fs t)) \/
  (exists f t fs1,
      source_ok fs f /\ extraction pdfminer f = (t, None) /\
      fs_open_trunc plat fs html_path = inr fs1 /\
      utf8_encode (translate_newlines (os_linesep plat) t) = None /\
      run plat pdfminer fs = (Raise UnicodeEncodeError, after_write_failure fs1 t)) \/
  (exists f t fs1 bs,
      source_ok fs f /\ extraction pdfminer f = (t, None) /\
      fs_open_trunc plat fs html_path = inr fs1 /\
      utf8_encode (translate_newlines (os_linesep plat) t) = Some bs /\
      (fs_free fs1 < length bs)%nat /\
      run plat pdfminer fs =
        (Raise (OSError ENOSPC), after_device_failure fs1 t bs)) \/
  (exists f t fs1 bs,
      source_ok fs f /\ extraction pdfminer f = (t, None) /\
      fs_open_trunc plat fs html_path = inr fs1 /\
      utf8_encode (translate_newlines (os_linesep plat) t) = Some bs /\
      (length bs <= fs_free fs1)%nat /\
      run plat pdfminer fs = (Ok tt, after_success fs1 t bs)).
Proof.
  destruct (fs_open_read plat fs pdf_path) as [e|fs'] eqn:Ho.
  { left. exists e. split; [reflexivity|]. now apply run_source_fails. }
  right. apply open_read_inv in Ho as [f Hs].
  destruct (extraction pdfminer f) as [t [e|]] eqn:Hx.
  { left. exists f, t, e. repeat split; try assumption; try apply Hs.
    now apply (run_extract_fails _ f). }
  right.
  destruct (fs_open_trunc plat fs html_path) as [e|fs1] eqn:Hd.
  { left. exists f, t, e. repeat split; try assumption; try apply Hs.
    now apply (run_dest_fails _ f). }
  right.
  destruct (utf8_encode (translate_newlines (os_linesep plat) t)) as [bs|] eqn:He.
  - right. destruct (Nat.le_gt_cases (length bs) (fs_free fs1)) as [Hfits|Hfull].
    + right. exists f, t, fs1, bs. repeat split; try assumption; try apply Hs.
      now apply (run_ok _ f).
    + left. exists f, t, fs1, bs. repeat split; try assumption; try apply Hs.
      now apply (run_device_fails _ f).
  - left. exists f, t, fs1. repeat split; try assumption; try apply Hs.
    now apply (run_write_fails _ f).
Qed.

End Cases.

(** ** Text and bytes *)

Lemma translate_newlines_lf s : translate_newlines [10] s = s.
Proof.
  unfold translate_newlines. induction s as [|c s IH]; [reflexivity|].
  cbn [flat_map]. rewrite IH. now destruct (N.eqb_spec c 10) as [->|].
Qed.

Lemma translate_newlines_none sep s :
  count_lines s = 0%nat -> translate_newlines sep s = s.
Proof.
  unfold translate_newlines, count_lines. induction s as [|c s IH]; [reflexivity|].
  cbn [flat_map count_occ]. destruct (N.eq_dec c 10) as [->|Hc]; [discriminate|].
  intros H. rewrite (IH H). destruct (N.eqb_spec c 10); [contradiction|reflexivity].
Qed.

(** * Properties of a run *)

Ltac run_cases_of p l fs :=
  let C := fresh "C" in
  destruct (run_cases p l fs) as
    [(?e & ?Ho & C)
    |[(?f & ?t & ?e & ?Hs & ?Hx & C)
     |[(?f & ?t & ?e & ?Hs & ?Hx & ?Hd & C)
      |[(?f & ?t & ?fs1 & ?Hs & ?Hx & ?Hd & ?He & C)
       |[(?f & ?t & ?fs1 & ?bs & ?Hs & ?Hx & ?Hd & ?He & ?Hfull & C)
        |(?f & ?t & ?fs1 & ?bs & ?Hs & ?Hx & ?Hd & ?He & ?Hfits & C)]]]]];
  unfold outcome, final in *; rewrite ?C in *; cbn [fst snd] in *.

(** C1, as amended. On every successful run the destination holds exactly
    the UTF-8 encoding of the whole extraction buffer after the text layer's
    newline translation (each line feed written as the platform's line
    separator), whatever it held before, and no other file is touched; where
    the separator is a line feed, or the buffer has no line feed, that is the
    encoding of the buffer itself, byte for byte. *)
Theorem destination_holds_translated_buffer plat pdfminer fs :
  outcome plat pdfminer fs = Ok tt ->
  exists buf bs,
    buffer_value (final plat pdfminer fs) = Some buf /\
    utf8_encode (translate_newlines (os_linesep plat) buf) = Some bs /\
    content (w_fs (final plat pdfminer fs)) html_path = Some bs /\
    (forall p, p ≠ html_path ->
       fs_files (w_fs (final plat pdfminer fs)) !! p = fs_files fs !! p) /\
    (os_linesep plat = [10] \/ count_lines buf = 0%nat ->
     utf8_encode buf = Some bs).
Proof.
  intros H. run_cases_of plat pdfminer fs; try discriminate H.
  apply open_trunc_inv in Hd as (r & c & Hdir & Hnodir & -> & _).
  exists t, bs. unfold buffer_value, content.
  cbn [after_success w_buffers w_fs]. rewrite append_after_trunc.
  cbn [fs_files]. rewrite lookup_singleton_eq, lookup_insert_eq.
  repeat split; try assumption; try reflexivity.
  - intros p Hp. now rewrite lookup_insert_ne.
  - intros [Hlf|Hnone].
    + rewrite Hlf, translate_newlines_lf in He. exact He.
    + rewrite translate_newlines_none in He by exact Hnone. exact He.
Qed.

Lemma destination_holds_translated_buffer_witness :
  exists buf bs,
    buffer_value (final Windows two_lines sample_fs) = Some buf /\
    utf8_encode (translate_newlines (os_linesep Windows) buf) = Some bs /\
    content (w_fs (final Windows two_lines sample_fs)) html_path = Some bs /\
    (forall p, p ≠ html_path ->
       fs_files (w_fs (final Windows two_lines sample_fs)) !! p =
       fs_files sample_fs !! p) /\
    (os_linesep Windows = [10] \/ count_lines buf = 0%nat ->
     utf8_encode buf = Some bs).
Proof.
  apply (destination_holds_translated_buffer Windows two_lines sample_fs).
  vm_compute. reflexivity.
Defined.

(** C1, as stated, fails on Windows: the buffer holds the three characters
    of [a], line feed, [b], the run succeeds, and the destination holds four
    bytes, with a carriage return before the line feed. *)
Lemma bytes_differ_on_windows :
  outcome Windows two_lines sample_fs = Ok tt /\
  buffer_value (final Windows two_lines sample_fs) = Some [97; 10; 98] /\
  utf8_encode [97; 10; 98] = Some [x61; x0a; x62] /\
  content (w_fs (final Windows two_lines sample_fs)) html_path =
    Some [x61; x0d; x0a; x62] /\
  content (w_fs (final Windows two_lines sample_fs)) html_path ≠
    utf8_encode [97; 10; 98].
Proof.
  split; [vm_compute; reflexivity|].
  split; [vm_compute; reflexivity|].
  split; [vm_compute; reflexivity|].
  split; [vm_compute; reflexivity|].
  vm_compute. discriminate.
Qed.

Lemma source_ok_unique fs f f' : source_ok fs f -> source_ok fs f' -> f = f'.
Proof. intros [H1 _] [H2 _]. congruence. Qed.

Lemma source_ok_not_failing plat fs f e :
  source_ok fs f -> fs_open_read plat fs pdf_path = inl e -> False.
Proof.
  intros Hs Ho. rewrite (source_ok_open plat _ _ Hs) in Ho. discriminate Ho.
Qed.

(** Writing the destination leaves the source as it is. *)
Lemma source_ok_insert fs f g k :
  source_ok fs f ->
  source_ok (FS (<[html_path := g]> (fs_files fs)) (fs_dirs fs) k) f.
Proof.
  intros [H1 H2]. split; [|exact H2]. cbn [fs_files].
  rewrite lookup_insert_ne; [exact H1|]. intros E. now apply paths_distinct.
Qed.

(** C2. Running the conversion a second time, on the file system the first
    run left, goes exactly as the first run went and leaves the destination
    with the same content: for one extraction function and one source, the
    result is determined. *)
Theorem second_run_repeats_first plat pdfminer fs :
  run plat pdfminer (w_fs (final plat pdfminer fs)) = run plat pdfminer fs /\
  content (w_fs (final plat pdfminer (w_fs (final plat pdfminer fs)))) html_path =
  content (w_fs (final plat pdfminer fs)) html_path.
Proof.
  assert (Hrun : run plat pdfminer (w_fs (final plat pdfminer fs)) =
                 run plat pdfminer fs).
  { run_cases_of plat pdfminer fs.
    - exact C.
    - exact C.
    - exact C.
    - cbn [after_write_failure w_fs].
      apply open_trunc_inv in Hd as (r & c & Hdir & Hnodir & -> & _).
      apply (run_write_fails _ _ _ f); try assumption.
      + now apply source_ok_insert.
      + rewrite (open_trunc_again _ _ _ _ _ _ c) by assumption.
        cbn [length]. now rewrite Nat.add_0_r.
    - cbn [after_device_failure w_fs].
      apply open_trunc_inv in Hd as (r & c & Hdir & Hnodir & -> & _).
      cbn [fs_free] in *. rewrite append_after_trunc.
      apply (run_device_fails _ _ _ f); try assumption.
      + now apply source_ok_insert.
      + rewrite (open_trunc_again _ _ _ _ _ _ c) by assumption.
        do 2 f_equal. rewrite length_take. lia.
    - cbn [after_success w_fs].
      apply open_trunc_inv in Hd as (r & c & Hdir & Hnodir & -> & _).
      cbn [fs_free] in *. rewrite append_after_trunc.
      apply (run_ok _ _ _ f); try assumption.
      + now apply source_ok_insert.
      + rewrite (open_trunc_again _ _ _ _ _ _ c) by assumption.
        do 2 f_equal. lia. }
  split; [exact Hrun|]. unfold final at 1. now rewrite Hrun.
Qed.

(** C3. When the source does not exist, or may not be read, the run ends
    with an I/O error and exit status 1, and the file system is as it was:
    the destination is never opened, so it is neither created nor changed. *)
Theorem missing_source_leaves_destination plat pdfminer fs :
  (fs_files fs !! pdf_path = None \/
   exists f, fs_files fs !! pdf_path = Some f /\ f_readable f = false) ->
  exists e,
    outcome plat pdfminer fs = Raise e /\
    is_OSError e = true /\
    exit_status (outcome plat pdfminer fs) = 1%Z /\
    w_fs (final plat pdfminer fs) = fs /\
    opens_of html_path (w_trace (final plat pdfminer fs)) = 0%nat.
Proof.
  intros H.
  assert (exists e, fs_open_read plat fs pdf_path = inl e) as [e He].
  { unfold fs_open_read. destruct H as [-> | (f & -> & ->)]; [|eauto].
    destruct (fs_dirs fs !! pdf_path); eauto. }
  exists e. unfold outcome, final. rewrite (run_source_fails plat pdfminer fs e He).
  cbn [fst snd after_source_failure w_fs w_trace exit_status opens_of].
  rewrite str_eqb_paths. repeat split. now apply open_read_error in He.
Qed.

Lemma missing_source_leaves_destination_witness :
  exists e,
    outcome Windows two_lines no_source_fs = Raise e /\
    is_OSError e = true /\
    exit_status (outcome Windows two_lines no_source_fs) = 1%Z /\
    w_fs (final Windows two_lines no_source_fs) = no_source_fs /\
    opens_of html_path (w_trace (final Windows two_lines no_source_fs)) = 0%nat.
Proof.
  apply (missing_source_leaves_destination Windows two_lines no_source_fs).
  left. vm_compute. reflexivity.
Defined.

Lemma open_trunc_no_dir plat fs p :
  fs_dirs fs !! parent_dir plat p = None ->
  fs_open_trunc plat fs p = inl (FileNotFoundError p).
Proof. intros H. unfold fs_open_trunc. now rewrite H. Qed.

(** C4. A failure of opening the source, of the extraction, or of opening
    the destination ends the run: the same exception leaves the module
    uncaught and is what the interpreter reports, the exit status is 1,
    nothing was tried twice, nothing is printed and the file system is as it
    was, so nothing is cleaned up and, if the destination's directory is
    missing, no destination appears. *)
Theorem failures_are_fatal plat pdfminer fs e :
  fatal_step plat pdfminer fs e ->
  outcome plat pdfminer fs = Raise e /\
  traceback (outcome plat pdfminer fs) = Some e /\
  exit_status (outcome plat pdfminer fs) = 1%Z /\
  exit_status (outcome plat pdfminer fs) ≠ 0%Z /\
  w_fs (final plat pdfminer fs) = fs /\
  w_stdout (final plat pdfminer fs) = [] /\
  (opens_of pdf_path (w_trace (final plat pdfminer fs)) <= 1)%nat /\
  (count_extractions (w_trace (final plat pdfminer fs)) <= 1)%nat /\
  (opens_of html_path (w_trace (final plat pdfminer fs)) <= 1)%nat.
Proof.
  intros H.
  assert (exists w,
             run plat pdfminer fs = (Raise e, w) /\ w_fs w = fs /\
             w_stdout w = [] /\
             (opens_of pdf_path (w_trace w) <= 1)%nat /\
             (count_extractions (w_trace w) <= 1)%nat /\
             (opens_of html_path (w_trace w) <= 1)%nat) as (w & C & Hw).
  { destruct H as [Ho | [(f & t & Hs & Hx) | [(f & t & Hs & Hx & Hd)
                  | (f & t & Hs & Hx & Hd & ->)]]].
    - eexists. split; [now apply run_source_fails|].
      cbn. rewrite str_eqb_refl, str_eqb_paths. cbn. repeat split; lia.
    - eexists. split; [eapply (run_extract_fails _ _ _ f); eassumption|].
      cbn. rewrite str_eqb_refl, str_eqb_paths. cbn. repeat split; lia.
    - eexists. split; [eapply (run_dest_fails _ _ _ f); eassumption|].
      cbn. rewrite !str_eqb_refl, str_eqb_paths, str_eqb_paths'. cbn.
      repeat split; lia.
    - eexists. split.
      { eapply (run_dest_fails _ _ _ f); try eassumption.
        now apply open_trunc_no_dir. }
      cbn. rewrite !str_eqb_refl, str_eqb_paths, str_eqb_paths'. cbn.
      repeat split; lia. }
  unfold outcome, final. rewrite C. cbn [fst snd traceback exit_status].
  destruct Hw as (? & ? & ? & ? & ?). repeat split; try assumption. discriminate.
Qed.

Lemma failures_are_fatal_witness :
  outcome Windows two_lines no_dir_fs = Raise (FileNotFoundError html_path) /\
  traceback (outcome Windows two_lines no_dir_fs) =
    Some (FileNotFoundError html_path) /\
  exit_status (outcome Windows two_lines no_dir_fs) = 1%Z /\
  exit_status (outcome Windows two_lines no_dir_fs) ≠ 0%Z /\
  w_fs (final Windows two_lines no_dir_fs) = no_dir_fs /\
  w_stdout (final Windows two_lines no_dir_fs) = [] /\
  (opens_of pdf_path (w_trace (final Windows two_lines no_dir_fs)) <= 1)%nat /\
  (count_extractions (w_trace (final Windows two_lines no_dir_fs)) <= 1)%nat /\
  (opens_of html_path (w_trace (final Windows two_lines no_dir_fs)) <= 1)%nat.
Proof.
  apply (failures_are_fatal Windows two_lines no_dir_fs).
  right. right. right.
  exists (File [x25; x50; x44; x46] true true), [97; 10; 98].
  split; [split; vm_compute; reflexivity|].
  split; [vm_compute; reflexivity|].
  split; [vm_compute; reflexivity|reflexivity].
Defined.

(** C5. A run that succeeds has printed one line, [HTML saved to] followed
    by the destination path, and nothing else; a run that fails has printed
    nothing, and the interpreter reports the exception. *)
Theorem prints_confirmation_on_success_only plat pdfminer fs :
  match outcome plat pdfminer fs with
  | Ok _ =>
      w_stdout (final plat pdfminer fs) =
        lit "HTML saved to " ++ html_path ++ [10] /\
      count_lines (w_stdout (final plat pdfminer fs)) = 1%nat /\
      List.filter is_print (w_trace (final plat pdfminer fs)) =
        [EvPrint (lit "HTML saved to " ++ html_path)]
  | Raise e =>
      w_stdout (final plat pdfminer fs) = [] /\
      traceback (outcome plat pdfminer fs) = Some e
  end.
Proof.
  run_cases_of plat pdfminer fs; try (split; reflexivity).
  cbn [after_success w_stdout w_trace]. split; [|split].
  - unfold confirmation. now rewrite <- app_assoc.
  - apply confirmation_one_line.
  - reflexivity.
Qed.

Lemma destination_ok_open plat fs :
  destination_ok plat fs ->
  exists fs1, fs_open_trunc plat fs html_path = inr fs1.
Proof.
  intros (c & Hc & Hn & H). unfold fs_open_trunc. rewrite Hc, Hn.
  destruct (fs_files fs !! html_path) as [g|].
  - rewrite H. eauto.
  - subst c. eauto.
Qed.

Lemma destination_refused_open plat fs :
  destination_refused plat fs ->
  exists e, fs_open_trunc plat fs html_path = inl e.
Proof.
  unfold fs_open_trunc. intros [H | [[b Hb] | [(g & Hg & Hw) | [Hn Hc]]]].
  - rewrite H. eauto.
  - destruct (fs_dirs fs !! parent_dir plat html_path); [|eauto].
    rewrite Hb. eauto.
  - destruct (fs_dirs fs !! parent_dir plat html_path); [|eauto].
    destruct (fs_dirs fs !! html_path); [eauto|]. rewrite Hg, Hw. eauto.
  - rewrite Hc, Hn. destruct (fs_dirs fs !! html_path); eauto.
Qed.

Lemma destination_ok_or_refused plat fs :
  destination_ok plat fs \/ destination_refused plat fs.
Proof.
  unfold destination_ok, destination_refused.
  destruct (fs_dirs fs !! parent_dir plat html_path) as [c|] eqn:Hc; [|auto].
  destruct (fs_dirs fs !! html_path) as [b|] eqn:Hb; [right; eauto|].
  destruct (fs_files fs !! html_path) as [g|] eqn:Hg.
  - destruct (f_writable g) eqn:W; [left; eauto|right; eauto 6].
  - destruct c; [left; eauto|right; auto].
Qed.

(** C6. Once the extraction has succeeded, the script opens the destination
    with mode [w] and encoding [utf-8]. Either the destination can be
    opened or it cannot. Where it can, the call gives a file object, and the
    destination exists afterwards and holds UTF-8 text only: bytes from the
    start of the encoding of what the script wrote, all of them if the run
    succeeds, and nothing of what the file held before (created if absent,
    emptied if present). Where it cannot (no parent directory, a directory
    of that name, or no right to create or write the file), the call fails
    with an I/O error and the file system is as it was. *)
Theorem destination_opened_for_utf8_text plat pdfminer fs f t :
  source_ok fs f ->
  extraction pdfminer f = (t, None) ->
  (destination_ok plat fs \/ destination_refused plat fs) /\
  (destination_ok plat fs ->
   (exists rest,
       w_trace (final plat pdfminer fs) =
       opened_source ++
       EvOpen html_path (lit "w") (Some (lit "utf-8")) (Some 5%nat) :: rest) /\
   exists bs,
     content (w_fs (final plat pdfminer fs)) html_path = Some bs /\
     bs `prefix_of`
       default [] (utf8_encode (translate_newlines (os_linesep plat) t)) /\
     (outcome plat pdfminer fs = Ok tt ->
      utf8_encode (translate_newlines (os_linesep plat) t) = Some bs)) /\
  (destination_refused plat fs ->
   w_trace (final plat pdfminer fs) =
     opened_source ++ [EvOpen html_path (lit "w") (Some (lit "utf-8")) None] /\
   exists e, outcome plat pdfminer fs = Raise e /\ is_OSError e = true /\
             w_fs (final plat pdfminer fs) = fs).
Proof.
  intros Hs Hx. split; [apply destination_ok_or_refused|].
  run_cases_of plat pdfminer fs.
  - destruct (source_ok_not_failing _ _ _ _ Hs Ho).
  - rewrite (source_ok_unique _ _ _ Hs Hs0) in Hx. congruence.
  - split.
    + intros Hok. apply destination_ok_open in Hok as [fs1 Hr]. congruence.
    + intros _. split; [reflexivity|]. exists e. repeat split.
      now apply open_trunc_error in Hd.
  - rewrite (source_ok_unique _ _ _ Hs Hs0) in Hx.
    assert (t0 = t) as -> by congruence. split.
    + intros _. split; [eexists; reflexivity|].
      apply open_trunc_inv in Hd as (r & c & Hdir & Hnodir & -> & _).
      exists []. rewrite He. unfold content.
      cbn [after_write_failure w_fs fs_files]. rewrite lookup_insert_eq.
      repeat split; [apply prefix_nil|discriminate].
    + intros Hno. apply destination_refused_open in Hno as [e' He']. congruence.
  - rewrite (source_ok_unique _ _ _ Hs Hs0) in Hx.
    assert (t0 = t) as -> by congruence. split.
    + intros _. split; [eexists; reflexivity|].
      apply open_trunc_inv in Hd as (r & c & Hdir & Hnodir & -> & _).
      eexists. rewrite He. unfold content.
      cbn [after_device_failure w_fs fs_free]. rewrite append_after_trunc.
      cbn [fs_files]. rewrite lookup_insert_eq.
      split; [reflexivity|]. split; [|discriminate].
      cbn [default]. eexists. symmetry. apply take_drop.
    + intros Hno. apply destination_refused_open in Hno as [e' He']. congruence.
  - rewrite (source_ok_unique _ _ _ Hs Hs0) in Hx.
    assert (t0 = t) as -> by congruence. split.
    + intros _. split; [eexists; reflexivity|].
      apply open_trunc_inv in Hd as (r & c & Hdir & Hnodir & -> & _).
      exists bs. rewrite He. unfold content.
      cbn [after_success w_fs]. rewrite append_after_trunc.
      cbn [fs_files]. rewrite lookup_insert_eq.
      repeat split; reflexivity.
    + intros Hno. apply destination_refused_open in Hno as [e' He']. congruence.
Qed.

Lemma destination_opened_for_utf8_text_witness :
  (destination_ok Windows sample_fs \/ destination_refused Windows sample_fs) /\
  (destination_ok Windows sample_fs ->
   (exists rest,
       w_trace (final Windows two_lines sample_fs) =
       opened_source ++
       EvOpen html_path (lit "w") (Some (lit "utf-8")) (Some 5%nat) :: rest) /\
   exists bs,
     content (w_fs (final Windows two_lines sample_fs)) html_path = Some bs /\
     bs `prefix_of`
       default []
         (utf8_encode (translate_newlines (os_linesep Windows) [97; 10; 98])) /\
     (outcome Windows two_lines sample_fs = Ok tt ->
      utf8_encode (translate_newlines (os_linesep Windows) [97; 10; 98]) =
        Some bs)) /\
  (destination_refused Windows sample_fs ->
   w_trace (final Windows two_lines sample_fs) =
     opened_source ++ [EvOpen html_path (lit "w") (Some (lit "utf-8")) None] /\
   exists e, outcome Windows two_lines sample_fs = Raise e /\
             is_OSError e = true /\
             w_fs (final Windows two_lines sample_fs) = sample_fs).
Proof.
  apply (destination_opened_for_utf8_text Windows two_lines sample_fs
           (File [x25; x50; x44; x46] true true) [97; 10; 98]).
  - split; vm_compute; reflexivity.
  - vm_compute. reflexivity.
Defined.

(** C7. Whenever the source opens, the next thing the script does is call
    the extraction routine on that stream, opened with mode [rb] (binary
    reading), with the buffer as sink, a layout object built without
    arguments, output type [html] and no codec; the buffer then holds what
    the library emits for the source's bytes and these arguments. *)
Theorem extraction_called_as_scripted plat pdfminer fs f :
  source_ok fs f ->
  (exists rest,
      w_trace (final plat pdfminer fs) =
      EvOpen pdf_path (lit "rb") None (Some 4%nat) ::
      EvExtract 4 3 (LAParams []) (lit "html") None :: rest) /\
  parse_mode (lit "rb") None = Some ReadBinary /\
  buffer_value (final plat pdfminer fs) =
    Some (fst (pdfminer (f_data f) (LAParams []) (lit "html") None)).
Proof.
  intros Hs.
  run_cases_of plat pdfminer fs;
    try (destruct (source_ok_not_failing _ _ _ _ Hs Ho));
    rewrite <- (source_ok_unique _ _ _ Hs Hs0) in Hx;
    unfold extraction in Hx; rewrite Hx;
    (split; [eexists; reflexivity|]); (split; [reflexivity|]);
    unfold buffer_value; cbn; now rewrite lookup_singleton_eq.
Qed.

Lemma extraction_called_as_scripted_witness :
  (exists rest,
      w_trace (final Windows two_lines sample_fs) =
      EvOpen pdf_path (lit "rb") None (Some 4%nat) ::
      EvExtract 4 3 (LAParams []) (lit "html") None :: rest) /\
  parse_mode (lit "rb") None = Some ReadBinary /\
  buffer_value (final Windows two_lines sample_fs) =
    Some (fst (two_lines (f_data (File [x25; x50; x44; x46] true true))
                 (LAParams []) (lit "html") None)).
Proof.
  apply (extraction_called_as_scripted Windows two_lines sample_fs
           (File [x25; x50; x44; x46] true true)).
  split; vm_compute; reflexivity.
Defined.

(** C8. In every run, each file object is used by one call only, the
    source by the extraction and the destination by the write, is closed by
    the event that follows that call, and nothing else happens while it is
    open; so the two are never open together, none is open when the line is
    printed or when the run ends, on success or on failure, and the only
    files opened are the source, for binary reading, and the destination,
    for writing UTF-8 text. *)
Theorem file_objects_are_scoped plat pdfminer fs :
  handles_scoped (w_trace (final plat pdfminer fs)) = true /\
  w_handles (final plat pdfminer fs) = ∅ /\
  Forall opens_as_scripted (w_trace (final plat pdfminer fs)).
Proof.
  run_cases_of plat pdfminer fs;
    (split; [reflexivity|]); (split; [reflexivity|]);
    cbn [w_trace after_source_failure after_extraction_failure
         after_destination_failure after_write_failure after_device_failure
         after_success opened_source app];
    repeat (apply List.Forall_cons;
            [ cbn [opens_as_scripted];
              first [ exact I
                    | left; repeat split; reflexivity
                    | right; repeat split; reflexivity ]
            | ]);
    apply List.Forall_nil.
Qed.

(** C9. When the extraction fails, the run ends with the library's
    exception after three events, opening the source, the extraction and
    closing the source: the destination is not opened, and the file system
    is as it was. *)
Theorem extraction_failure_spares_destination plat pdfminer fs f t e :
  source_ok fs f ->
  extraction pdfminer f = (t, Some e) ->
  outcome plat pdfminer fs = Raise e /\
  w_fs (final plat pdfminer fs) = fs /\
  w_trace (final plat pdfminer fs) = opened_source /\
  opens_of html_path (w_trace (final plat pdfminer fs)) = 0%nat.
Proof.
  intros Hs Hx. unfold outcome, final.
  rewrite (run_extract_fails plat pdfminer fs f t e Hs Hx).
  cbn. now rewrite str_eqb_paths.
Qed.

Lemma extraction_failure_spares_destination_witness :
  outcome Windows rejecting sample_fs =
    Raise (LibraryError (lit "PDFSyntaxError")) /\
  w_fs (final Windows rejecting sample_fs) = sample_fs /\
  w_trace (final Windows rejecting sample_fs) = opened_source /\
  opens_of html_path (w_trace (final Windows rejecting sample_fs)) = 0%nat.
Proof.
  apply (extraction_failure_spares_destination Windows rejecting sample_fs
           (File [x25; x50; x44; x46] true true) (lit "<html>")).
  - split; vm_compute; reflexivity.
  - vm_compute. reflexivity.
Defined.

(** C10. When the extraction succeeds with no output, nothing rejects the
    empty text: if the destination can be opened the run succeeds, the
    destination exists and is empty, and the line is printed; the run fails
    only if opening the destination does. *)
Theorem empty_output_is_written plat pdfminer fs f :
  source_ok fs f ->
  extraction pdfminer f = ([], None) ->
  (destination_ok plat fs ->
   outcome plat pdfminer fs = Ok tt /\
   content (w_fs (final plat pdfminer fs)) html_path = Some [] /\
   w_stdout (final plat pdfminer fs) = lit "HTML saved to " ++ html_path ++ [10]) /\
  (forall e, outcome plat pdfminer fs = Raise e ->
             fs_open_trunc plat fs html_path = inl e).
Proof.
  intros Hs Hx.
  assert (Hrun : forall fs1, fs_open_trunc plat fs html_path = inr fs1 ->
            run plat pdfminer fs = (Ok tt, after_success fs1 [] [])).
  { intros fs1 Hr. apply (run_ok plat pdfminer fs f [] fs1 [] Hs Hx Hr eq_refl).
    cbn [length]. lia. }
  split.
  - intros Hok. apply destination_ok_open in Hok as [fs1 Hr].
    unfold outcome, final. rewrite (Hrun fs1 Hr).
    apply open_trunc_inv in Hr as (r & c & _ & _ & -> & _).
    cbn [fst snd after_success w_fs w_stdout]. rewrite append_after_trunc.
    unfold content, confirmation. cbn [fs_files].
    rewrite lookup_insert_eq, <- app_assoc. auto.
  - intros e He.
    destruct (fs_open_trunc plat fs html_path) as [e'|fs1] eqn:Hd.
    + unfold outcome in He.
      rewrite (run_dest_fails plat pdfminer fs f [] e' Hs Hx Hd) in He.
      cbn in He. congruence.
    + unfold outcome in He. rewrite (Hrun fs1 eq_refl) in He. discriminate He.
Qed.

Lemma empty_output_is_written_witness :
  (destination_ok Windows fresh_fs ->
   outcome Windows no_output fresh_fs = Ok tt /\
   content (w_fs (final Windows no_output fresh_fs)) html_path = Some [] /\
   w_stdout (final Windows no_output fresh_fs) =
     lit "HTML saved to " ++ html_path ++ [10]) /\
  (forall e, outcome Windows no_output fresh_fs = Raise e ->
             fs_open_trunc Windows fresh_fs html_path = inl e).
Proof.
  apply (empty_output_is_written Windows no_output fresh_fs
           (File [x25; x50; x44; x46] true true)).
  - split; vm_compute; reflexivity.
  - vm_compute. reflexivity.
Defined.

(** * Further properties of a run *)

(** ** The codec *)

Lemma utf8_encode_cons c r :
  utf8_encode (c :: r) =
  match utf8_char c, utf8_encode r with
  | Some b, Some bs => Some (b ++ bs)
  | _, _ => None
  end.
Proof. reflexivity. Qed.

Lemma translate_newlines_cons sep c r :
  translate_newlines sep (c :: r) =
  (if c =? 10 then sep else [c]) ++ translate_newlines sep r.
Proof. reflexivity. Qed.

Lemma utf8_char_scalar c : is_Some (utf8_char c) <-> is_scalar c = true.
Proof.
  unfold utf8_char, is_scalar.
  destruct (N.ltb_spec c 0x80), (N.ltb_spec c 0x800), (N.leb_spec 0xD800 c),
    (N.leb_spec c 0xDFFF), (N.ltb_spec c 0x10000), (N.ltb_spec c 0x110000),
    (N.ltb_spec c 0xD800), (N.ltb_spec 0xDFFF c);
    cbn; split; intros H'; try lia; try reflexivity; try discriminate H';
    try (eexists; reflexivity); try (destruct H' as [? H']; discriminate H').
Qed.

Lemma utf8_char_length c b :
  utf8_char c = Some b -> (1 <= length b <= 4)%nat.
Proof.
  unfold utf8_char.
  repeat match goal with
         | |- context [if ?x then _ else _] => destruct x
         end; intros [= <-]; cbn; lia.
Qed.

Lemma utf8_char_ascii c : c < 0x80 -> utf8_char c = Some [byte_of_N c].
Proof. intros H. unfold utf8_char. now destruct (N.ltb_spec c 0x80); [|lia]. Qed.

Lemma utf8_encode_app a b :
  utf8_encode (a ++ b) =
  match utf8_encode a, utf8_encode b with
  | Some x, Some y => Some (x ++ y)
  | _, _ => None
  end.
Proof.
  induction a as [|c a IH]; cbn [app].
  - change (utf8_encode []) with (Some (@nil byte)). now destruct (utf8_encode b).
  - rewrite !utf8_encode_cons, IH.
    destruct (utf8_char c), (utf8_encode a), (utf8_encode b); try reflexivity.
    now rewrite app_assoc.
Qed.

Lemma linesep_encoded plat :
  exists sb, utf8_encode (os_linesep plat) = Some sb /\
             length sb = length (os_linesep plat) /\
             (1 <= length sb <= 2)%nat.
Proof. destruct plat; eexists; (split; [reflexivity|]); cbn; lia. Qed.

Lemma utf8_encode_scalar s :
  is_Some (utf8_encode s) <-> forallb is_scalar s = true.
Proof.
  induction s as [|c s IH]; [split; [reflexivity|eexists; reflexivity]|].
  rewrite utf8_encode_cons. cbn [forallb]. rewrite andb_true_iff, <- IH.
  rewrite <- utf8_char_scalar.
  destruct (utf8_char c), (utf8_encode s); split;
    try (intros [? [=]]); try (intros [[? [=]] [? [=]]]); eauto.
Qed.

(** What the text layer and the codec do to a text, for a separator the
    codec accepts: the result exists exactly when the text is made of
    scalar values, and its length is that of the plain encoding with every
    line feed replaced by the encoded separator. *)
Lemma encode_translated sep sb s :
  utf8_encode sep = Some sb ->
  (is_Some (utf8_encode (translate_newlines sep s)) <->
   forallb is_scalar s = true) /\
  (forall bs, utf8_encode (translate_newlines sep s) = Some bs ->
     exists b0, utf8_encode s = Some b0 /\
       (length bs + count_lines s = length b0 + count_lines s * length sb)%nat).
Proof.
  intros Hsep. induction s as [|c s [IH1 IH2]].
  { split; [split; [reflexivity|eexists; reflexivity]|].
    intros bs [= <-]. exists []. split; reflexivity. }
  rewrite translate_newlines_cons, utf8_encode_app, utf8_encode_cons.
  unfold count_lines in *. cbn [forallb count_occ].
  destruct (N.eqb_spec c 10) as [->|Hc].
  - rewrite Hsep. change (is_scalar 10) with true.
    change (utf8_char 10) with (Some [x0a]). cbn [andb].
    destruct (N.eq_dec 10 10) as [_|?]; [|contradiction].
    split.
    + rewrite <- IH1. destruct (utf8_encode (translate_newlines sep s));
        split; try (intros [? [=]]); eauto.
    + intros bs H.
      destruct (utf8_encode (translate_newlines sep s)) as [bs'|] eqn:E;
        [|discriminate H].
      injection H as <-. destruct (IH2 bs' eq_refl) as (b0 & -> & Hlen).
      eexists. split; [reflexivity|]. rewrite !length_app. cbn [length]. lia.
  - destruct (N.eq_dec c 10) as [?|_]; [contradiction|].
    change (utf8_encode [c]) with
      (match utf8_char c with Some b => Some (b ++ []) | None => None end).
    split.
    + rewrite andb_true_iff, <- IH1, <- utf8_char_scalar.
      destruct (utf8_char c), (utf8_encode (translate_newlines sep s)); split;
        try (intros [? [=]]); try (intros [[? [=]] [? [=]]]); eauto.
    + intros bs H. destruct (utf8_char c) as [b|]; [|discriminate H].
      destruct (utf8_encode (translate_newlines sep s)) as [bs'|] eqn:E;
        [|discriminate H].
      injection H as <-. destruct (IH2 bs' eq_refl) as (b0 & -> & Hlen).
      eexists. split; [reflexivity|]. rewrite app_nil_r, !length_app. lia.
Qed.

(** Each character becomes one to four bytes, a line feed included, which
    becomes the one or two bytes of the separator. *)
Lemma encode_translated_bounds plat s bs :
  utf8_encode (translate_newlines (os_linesep plat) s) = Some bs ->
  (length s <= length bs <= 4 * length s)%nat.
Proof.
  destruct (linesep_encoded plat) as (sb & Hsep & _ & Hsb).
  revert bs. induction s as [|c s IH]; intros bs.
  { intros [= <-]. cbn. lia. }
  rewrite translate_newlines_cons, utf8_encode_app.
  destruct (utf8_encode (translate_newlines (os_linesep plat) s)) as [bs'|];
    [|intros H; destruct (utf8_encode (if c =? 10 then _ else _));
      discriminate H].
  specialize (IH bs' eq_refl).
  destruct (N.eqb_spec c 10) as [->|Hc].
  - rewrite Hsep. intros [= <-]. rewrite length_app. cbn [length]. lia.
  - change (utf8_encode [c]) with
      (match utf8_char c with Some b => Some (b ++ []) | None => None end).
    destruct (utf8_char c) as [b|] eqn:Eb; [|discriminate].
    apply utf8_char_length in Eb. intros [= <-].
    rewrite app_nil_r, length_app. cbn [length]. lia.
Qed.

Lemma open_trunc_destination_ok plat fs fs1 :
  fs_open_trunc plat fs html_path = inr fs1 -> destination_ok plat fs.
Proof.
  intros H. apply open_trunc_inv in H as (r & c & Hdir & Hn & _ & H).
  exists c. split; [exact Hdir|]. split; [exact Hn|].
  destruct (fs_files fs !! html_path); tauto.
Qed.

Lemma encode_translated_none plat t :
  forallb is_scalar t = false ->
  utf8_encode (translate_newlines (os_linesep plat) t) = None.
Proof.
  intros H. destruct (linesep_encoded plat) as (sb & Hsep & _).
  destruct (encode_translated _ _ t Hsep) as [Hiff _].
  destruct (utf8_encode (translate_newlines (os_linesep plat) t)) as [bs|];
    [|reflexivity].
  assert (forallb is_scalar t = true) by (apply Hiff; eauto). congruence.
Qed.

Lemma encode_translated_some plat t :
  forallb is_scalar t = true ->
  exists bs, utf8_encode (translate_newlines (os_linesep plat) t) = Some bs.
Proof.
  intros H. destruct (linesep_encoded plat) as (sb & Hsep & _).
  destruct (encode_translated _ _ t Hsep) as [Hiff _].
  apply Hiff in H as [bs Hbs]. eauto.
Qed.

(** X1. When the extracted text holds a code point the codec refuses (a
    surrogate), the write fails after the destination has been opened: the
    run ends with [UnicodeEncodeError] and exit status 1, the destination
    is left existing and empty, whatever it held before, nothing is printed
    and no file object stays open. *)
Theorem write_failure_empties_destination plat pdfminer fs f t :
  source_ok fs f ->
  extraction pdfminer f = (t, None) ->
  destination_ok plat fs ->
  forallb is_scalar t = false ->
  outcome plat pdfminer fs = Raise UnicodeEncodeError /\
  exit_status (outcome plat pdfminer fs) = 1%Z /\
  content (w_fs (final plat pdfminer fs)) html_path = Some [] /\
  w_stdout (final plat pdfminer fs) = [] /\
  w_handles (final plat pdfminer fs) = ∅.
Proof.
  intros Hs Hx Hok Hbad. apply destination_ok_open in Hok as [fs1 Hr].
  apply (encode_translated_none plat) in Hbad.
  unfold outcome, final.
  rewrite (run_write_fails plat pdfminer fs f t _ Hs Hx Hr Hbad).
  apply open_trunc_inv in Hr as (r & c & _ & _ & -> & _).
  cbn [fst snd exit_status after_write_failure w_fs w_stdout w_handles].
  unfold content. cbn [fs_files]. rewrite lookup_insert_eq. auto.
Qed.

Lemma write_failure_empties_destination_witness :
  outcome Windows lone_surrogate sample_fs = Raise UnicodeEncodeError /\
  exit_status (outcome Windows lone_surrogate sample_fs) = 1%Z /\
  content (w_fs (final Windows lone_surrogate sample_fs)) html_path = Some [] /\
  w_stdout (final Windows lone_surrogate sample_fs) = [] /\
  w_handles (final Windows lone_surrogate sample_fs) = ∅.
Proof.
  apply (write_failure_empties_destination Windows lone_surrogate sample_fs
           (File [x25; x50; x44; x46] true true) [60; 0xD800; 62]).
  - split; vm_compute; reflexivity.
  - vm_compute. reflexivity.
  - exists true. split; [|split]; vm_compute; reflexivity.
  - vm_compute. reflexivity.
Defined.

(** X2. Whatever happens, a run changes nothing but the destination file:
    the directories are as they were (none is created), every other file is
    as it was, and so is the source. *)
Theorem only_destination_is_touched plat pdfminer fs :
  fs_dirs (w_fs (final plat pdfminer fs)) = fs_dirs fs /\
  delete html_path (fs_files (w_fs (final plat pdfminer fs))) =
    delete html_path (fs_files fs) /\
  fs_files (w_fs (final plat pdfminer fs)) !! pdf_path =
    fs_files fs !! pdf_path.
Proof.
  run_cases_of plat pdfminer fs; try (repeat split; reflexivity);
    apply open_trunc_inv in Hd as (r & c & Hdir & Hnodir & -> & _);
    cbn [after_write_failure after_device_failure after_success w_fs fs_free];
    rewrite ?append_after_trunc; cbn [fs_files fs_dirs];
    (split; [reflexivity|]); (split; [apply delete_insert_eq|]);
    apply lookup_insert_ne; intros E; now apply paths_distinct.
Qed.

(** X3. The destination is opened, and the file system changed, only in
    runs whose source was readable and whose extraction ended without an
    exception; the buffer then holds the extracted text. *)
Theorem destination_touched_only_after_extraction plat pdfminer fs :
  opens_of html_path (w_trace (final plat pdfminer fs)) ≠ 0%nat \/
  w_fs (final plat pdfminer fs) ≠ fs ->
  exists f t,
    source_ok fs f /\ extraction pdfminer f = (t, None) /\
    buffer_value (final plat pdfminer fs) = Some t.
Proof.
  intros H.
  run_cases_of plat pdfminer fs;
    try (exists f, t; repeat split; try assumption; try apply Hs;
         unfold buffer_value; cbn; apply lookup_singleton_eq);
    exfalso; destruct H as [H|H]; try (now apply H);
    apply H; cbn; now rewrite ?str_eqb_paths.
Qed.

Lemma destination_touched_only_after_extraction_witness :
  exists f t,
    source_ok sample_fs f /\ extraction two_lines f = (t, None) /\
    buffer_value (final Windows two_lines sample_fs) = Some t.
Proof.
  apply (destination_touched_only_after_extraction Windows two_lines sample_fs).
  left. vm_compute. discriminate.
Defined.

(** X4. A run succeeds only where all of this holds: the source can be
    read, the extraction ends without an exception, its text is made of
    Unicode scalar values, the destination can be opened for writing, and
    the encoded text is no longer than what the device can take once the
    destination is emptied. The exit status is then 0. *)
Theorem success_requires plat pdfminer fs :
  outcome plat pdfminer fs = Ok tt ->
  exists f t bs,
    source_ok fs f /\
    extraction pdfminer f = (t, None) /\
    forallb is_scalar t = true /\
    destination_ok plat fs /\
    utf8_encode (translate_newlines (os_linesep plat) t) = Some bs /\
    (length bs <= destination_room fs)%nat /\
    exit_status (outcome plat pdfminer fs) = 0%Z.
Proof.
  intros H. run_cases_of plat pdfminer fs; try discriminate H.
  exists f, t, bs. repeat split; try assumption; try apply Hs.
  - destruct (linesep_encoded plat) as (sb & Hsep & _).
    apply (encode_translated _ _ t Hsep). eauto.
  - now apply open_trunc_destination_ok in Hd.
  - apply open_trunc_inv in Hd as (r & c & _ & _ & -> & _).
    exact Hfits.
Qed.

Lemma success_requires_witness :
  exists f t bs,
    source_ok sample_fs f /\
    extraction two_lines f = (t, None) /\
    forallb is_scalar t = true /\
    destination_ok Windows sample_fs /\
    utf8_encode (translate_newlines (os_linesep Windows) t) = Some bs /\
    (length bs <= destination_room sample_fs)%nat /\
    exit_status (outcome Windows two_lines sample_fs) = 0%Z.
Proof.
  apply (success_requires Windows two_lines sample_fs).
  vm_compute. reflexivity.
Defined.

Lemma utf8_encode_ascii s :
  forallb (fun c => c <? 0x80) s = true ->
  utf8_encode s = Some (List.map byte_of_N s).
Proof.
  induction s as [|c s IH]; [reflexivity|].
  cbn [forallb List.map]. rewrite andb_true_iff. intros [Hc Hs].
  rewrite utf8_encode_cons, (IH Hs), utf8_char_ascii; [reflexivity|].
  now apply N.ltb_lt.
Qed.

(** X5. On a successful run the destination has as many bytes as the
    UTF-8 encoding of the buffer, plus, for each line feed of the buffer,
    the length of the platform's line separator less one: the same size
    where the separator is a line feed, one byte more per line on
    Windows. *)
Theorem destination_size plat pdfminer fs :
  outcome plat pdfminer fs = Ok tt ->
  exists buf b0 bs,
    buffer_value (final plat pdfminer fs) = Some buf /\
    utf8_encode buf = Some b0 /\
    content (w_fs (final plat pdfminer fs)) html_path = Some bs /\
    (length bs =
     length b0 + count_lines buf * (length (os_linesep plat) - 1))%nat.
Proof.
  intros H. run_cases_of plat pdfminer fs; try discriminate H.
  apply open_trunc_inv in Hd as (r & c & Hdir & Hnodir & -> & _).
  destruct (linesep_encoded plat) as (sb & Hsep & Hlen & _).
  destruct (encode_translated _ _ t Hsep) as [_ Hl].
  destruct (Hl bs He) as (b0 & Hb0 & Hsize).
  exists t, b0, bs. unfold buffer_value, content.
  cbn [after_success w_buffers w_fs]. rewrite append_after_trunc.
  cbn [fs_files]. rewrite lookup_singleton_eq, lookup_insert_eq.
  repeat split; try assumption.
  rewrite <- Hlen. destruct plat; cbn in Hlen; rewrite Hlen in *; lia.
Qed.

Lemma destination_size_witness :
  exists buf b0 bs,
    buffer_value (final Windows two_lines sample_fs) = Some buf /\
    utf8_encode buf = Some b0 /\
    content (w_fs (final Windows two_lines sample_fs)) html_path = Some bs /\
    (length bs =
     length b0 + count_lines buf * (length (os_linesep Windows) - 1))%nat.
Proof.
  apply (destination_size Windows two_lines sample_fs).
  vm_compute. reflexivity.
Defined.

(** X6. On a successful run the destination has at least one byte and at
    most four bytes for each character of the buffer, on either
    platform. *)
Theorem destination_size_bounds plat pdfminer fs :
  outcome plat pdfminer fs = Ok tt ->
  exists buf bs,
    buffer_value (final plat pdfminer fs) = Some buf /\
    content (w_fs (final plat pdfminer fs)) html_path = Some bs /\
    (length buf <= length bs <= 4 * length buf)%nat.
Proof.
  intros H. run_cases_of plat pdfminer fs; try discriminate H.
  apply open_trunc_inv in Hd as (r & c & Hdir & Hnodir & -> & _).
  exists t, bs. unfold buffer_value, content.
  cbn [after_success w_buffers w_fs]. rewrite append_after_trunc.
  cbn [fs_files]. rewrite lookup_singleton_eq, lookup_insert_eq.
  repeat split; now apply encode_translated_bounds in He.
Qed.

Lemma destination_size_bounds_witness :
  exists buf bs,
    buffer_value (final Windows two_lines sample_fs) = Some buf /\
    content (w_fs (final Windows two_lines sample_fs)) html_path = Some bs /\
    (length buf <= length bs <= 4 * length buf)%nat.
Proof.
  apply (destination_size_bounds Windows two_lines sample_fs).
  vm_compute. reflexivity.
Defined.

(** X7. The text goes to the destination in one piece: in every run the
    script makes at most one [write] call, and that call carries the whole
    value of the buffer; a run that makes none has failed. *)
Theorem buffer_written_in_one_call plat pdfminer fs :
  (List.filter is_write (w_trace (final plat pdfminer fs)) = [] /\
   outcome plat pdfminer fs ≠ Ok tt) \/
  exists fd buf,
    List.filter is_write (w_trace (final plat pdfminer fs)) =
      [EvWrite fd buf] /\
    buffer_value (final plat pdfminer fs) = Some buf.
Proof.
  run_cases_of plat pdfminer fs;
    try (left; split; [reflexivity|discriminate]);
    right; exists 5%nat, t; (split; [reflexivity|]);
    unfold buffer_value; cbn; apply lookup_singleton_eq.
Qed.

(** X8. ASCII text reaches the destination unchanged: on a successful run
    whose buffer holds only code points below 128, and no line feed unless
    the platform's separator is the line feed, the bytes of the destination
    are the code points of the buffer, one for one. *)
Theorem ascii_text_is_written_unchanged plat pdfminer fs buf :
  outcome plat pdfminer fs = Ok tt ->
  buffer_value (final plat pdfminer fs) = Some buf ->
  forallb (fun c => c <? 0x80) buf = true ->
  os_linesep plat = [10] \/ count_lines buf = 0%nat ->
  content (w_fs (final plat pdfminer fs)) html_path =
    Some (List.map byte_of_N buf).
Proof.
  intros H Hb Hascii Hnl. run_cases_of plat pdfminer fs; try discriminate H.
  apply open_trunc_inv in Hd as (r & c & Hdir & Hnodir & -> & _).
  unfold buffer_value in Hb. cbn [after_success w_buffers] in Hb.
  rewrite lookup_singleton_eq in Hb. injection Hb as ->.
  unfold content. cbn [after_success w_fs]. rewrite append_after_trunc.
  cbn [fs_files]. rewrite lookup_insert_eq. cbn [fmap option_fmap option_map f_data].
  rewrite <- (utf8_encode_ascii buf Hascii), <- He.
  destruct Hnl as [-> | Hnone].
  - now rewrite translate_newlines_lf.
  - now rewrite translate_newlines_none.
Qed.

Lemma ascii_text_is_written_unchanged_witness :
  content (w_fs (final Windows one_line sample_fs)) html_path =
    Some (List.map byte_of_N (lit "<html></html>")).
Proof.
  apply (ascii_text_is_written_unchanged Windows one_line sample_fs
           (lit "<html></html>")).
  - vm_compute. reflexivity.
  - vm_compute. reflexivity.
  - vm_compute. reflexivity.
  - right. vm_compute. reflexivity.
Defined.
